(** * run_gemini.py: one prompt sent to a hosted model, the answer printed

    The script is a straight line of calls into the Vertex AI client
    library followed by three [print] statements.  The client library and
    the remote service are not part of the repository: they are an
    interface ([SDK]) every result below is proved for, whatever the
    implementation.  The script itself runs in a monad that threads the
    state of the process (standard output, the state of the library and of
    the service) and in which a raised exception ends the run while the
    state reached so far is kept.

    Two things are taken from Python and not from the script: [print]
    writes its argument and a line feed and does not raise, and the
    library writes nothing to standard output itself. *)

From Stdlib Require Import String Ascii List ZArith.
From ExtLib Require Import Structures.Monad Data.Monads.StateMonad
  Data.Monads.EitherMonad.
Import ListNotations.
Import MonadNotation.

Local Open Scope string_scope.
Local Open Scope monad_scope.

(** ** The client library *)

(** What the script uses of [vertexai]: [vertexai.init], the constructor
    [GenerativeModel], the method [generate_content] and the property
    [text] of its result.  Each of them may raise ([inl]) or return
    ([inr]), and each may change the state of the library and of the
    service behind it. *)
Record SDK : Type := {
  Exc : Type;
  Svc : Type;
  Model : Type;
  Response : Type;
  sdk_init : string -> string -> Svc -> (Exc + unit) * Svc;
  sdk_GenerativeModel : string -> Svc -> (Exc + Model) * Svc;
  sdk_generate_content : Model -> string -> Svc -> (Exc + Response) * Svc;
  sdk_text : Response -> Svc -> (Exc + string) * Svc
}.

(** The calls a run makes into the library, in order (instrumentation:
    the script never reads it). *)
Inductive Call : Type :=
| CallInit (project location : string)
| CallGenerativeModel (model_name : string)
| CallGenerateContent (contents : string)
| CallText.

(** The prompts sent with [generate_content], oldest first. *)
Fixpoint prompts_sent (l : list Call) : list string :=
  match l with
  | [] => []
  | CallGenerateContent p :: l' => p :: prompts_sent l'
  | _ :: l' => prompts_sent l'
  end.

(** The line feed Python writes for a line break. *)
Definition nl : string := String (ascii_of_nat 10) EmptyString.

(** A string that fits on one line: no line feed in it. *)
Fixpoint one_line (h : string) : bool :=
  match h with
  | EmptyString => true
  | String c h' => negb (Ascii.eqb c (ascii_of_nat 10)) && one_line h'
  end.

(** ** Constants of the script *)

Definition PROJECT_ID : string := "optimum-rock-467801-f1".
Definition LOCATION : string := "us-central1".

(** The triple-quoted literal of lines 14 to 17: the line break after the
    opening quotes and the one before the closing quotes belong to it. *)
Definition prompt : string :=
  nl ++ "Write a short, professional email to a client named Alex to confirm the meeting for next Tuesday."
     ++ nl ++ "Mention that you're looking forward to discussing the new project."
     ++ nl.

Section PromptRunner.

Context {V : SDK}.

(** ** The process *)

Record World : Type := {
  stdout : string;
  calls : list Call;
  svc : Svc V
}.

(** A statement: it ends by raising or by returning, and in both cases
    leaves a state of the process. *)
Definition Proc : Type -> Type := eitherT (Exc V) (state World).

Definition exec {A : Type} (c : Proc A) (w : World) : (Exc V + A) * World :=
  runState (unEitherT c) w.

(** A call into the library, recorded in [calls]. *)
Definition call {A : Type} (c : Call)
    (op : Svc V -> (Exc V + A) * Svc V) : Proc A :=
  mkEitherT (mkState (fun w =>
    let (r, s) := op (svc w) in
    (r, {| stdout := stdout w; calls := (calls w ++ [c])%list; svc := s |}))).

Definition vertexai_init (project location : string) : Proc unit :=
  call (CallInit project location) (sdk_init V project location).

Definition GenerativeModel (model_name : string) : Proc (Model V) :=
  call (CallGenerativeModel model_name) (sdk_GenerativeModel V model_name).

Definition generate_content (model : Model V) (contents : string)
    : Proc (Response V) :=
  call (CallGenerateContent contents) (sdk_generate_content V model contents).

Definition text (response : Response V) : Proc string :=
  call CallText (sdk_text V response).

(** [print(s)] for a string [s]: the string, then a line break. *)
Definition print (s : string) : Proc unit :=
  mkEitherT (mkState (fun w =>
    (inr tt,
     {| stdout := stdout w ++ s ++ nl; calls := calls w; svc := svc w |}))).

(** ** The script *)

(** Lines 23 to 25.  The argument of the third [print] is evaluated when
    that statement is reached, after the first two have written. *)
Definition render (response : Response V) : Proc unit :=
  print "Model Response:" ;;
  print "---------------" ;;
  t <- text response ;;
  print t.

(** Lines 8 to 25, with the four literals as arguments. *)
Definition prompt_runner (project location model_name contents : string)
    : Proc unit :=
  vertexai_init project location ;;
  model <- GenerativeModel model_name ;;
  response <- generate_content model contents ;;
  render response.

(** The script as it is written. *)
Definition run_gemini : Proc unit :=
  prompt_runner PROJECT_ID LOCATION "gemini-2.5-pro" prompt.

(** ** Running the script as a process *)

(** A new process has written nothing and has called nothing. *)
Definition fresh (s : Svc V) : World :=
  {| stdout := ""; calls := []; svc := s |}.

Definition python (script : Proc unit) (s : Svc V) : (Exc V + unit) * World :=
  exec script (fresh s).

(** The interpreter exits with 0 when the module body ends, and with 1 on
    an exception nothing caught. *)
Definition exit_status (r : Exc V + unit) : Z :=
  match r with
  | inr _ => 0
  | inl _ => 1
  end.

(** ** What the properties say of the service *)

(** A deterministic service: what a call raises or returns depends on its
    arguments only, not on what was served before. *)
Definition deterministic : Prop :=
  (forall project location s s',
      fst (sdk_init V project location s) =
      fst (sdk_init V project location s')) /\
  (forall model_name s s',
      fst (sdk_GenerativeModel V model_name s) =
      fst (sdk_GenerativeModel V model_name s')) /\
  (forall m contents s s',
      fst (sdk_generate_content V m contents s) =
      fst (sdk_generate_content V m contents s')) /\
  (forall r s s', fst (sdk_text V r s) = fst (sdk_text V r s')).

(** ** The ways a run can end *)

(** The calls of a complete run, in the order of lines 8, 11, 20 and 25. *)
Definition script_calls (project location model_name contents : string)
    : list Call :=
  [CallInit project location;
   CallGenerativeModel model_name;
   CallGenerateContent contents;
   CallText].

(** The script read statement by statement: the first call that raises
    ends the run, and the state it leaves is the state reached there. *)
Inductive ends (project location model_name contents : string) (w : World)
    : (Exc V + unit) * World -> Prop :=
| init_raised e s1 :
    sdk_init V project location (svc w) = (inl e, s1) ->
    ends project location model_name contents w
      (inl e,
       {| stdout := stdout w;
          calls := (calls w
                     ++ firstn 1 (script_calls project location model_name contents))%list;
          svc := s1 |})
| model_raised e s1 s2 :
    sdk_init V project location (svc w) = (inr tt, s1) ->
    sdk_GenerativeModel V model_name s1 = (inl e, s2) ->
    ends project location model_name contents w
      (inl e,
       {| stdout := stdout w;
          calls := (calls w
                     ++ firstn 2 (script_calls project location model_name contents))%list;
          svc := s2 |})
| generate_raised m e s1 s2 s3 :
    sdk_init V project location (svc w) = (inr tt, s1) ->
    sdk_GenerativeModel V model_name s1 = (inr m, s2) ->
    sdk_generate_content V m contents s2 = (inl e, s3) ->
    ends project location model_name contents w
      (inl e,
       {| stdout := stdout w;
          calls := (calls w
                     ++ firstn 3 (script_calls project location model_name contents))%list;
          svc := s3 |})
| text_raised m r e s1 s2 s3 s4 :
    sdk_init V project location (svc w) = (inr tt, s1) ->
    sdk_GenerativeModel V model_name s1 = (inr m, s2) ->
    sdk_generate_content V m contents s2 = (inr r, s3) ->
    sdk_text V r s3 = (inl e, s4) ->
    ends project location model_name contents w
      (inl e,
       {| stdout := stdout w ++ "Model Response:" ++ nl ++ "---------------" ++ nl;
          calls := (calls w
                     ++ script_calls project location model_name contents)%list;
          svc := s4 |})
| returned m r t s1 s2 s3 s4 :
    sdk_init V project location (svc w) = (inr tt, s1) ->
    sdk_GenerativeModel V model_name s1 = (inr m, s2) ->
    sdk_generate_content V m contents s2 = (inr r, s3) ->
    sdk_text V r s3 = (inr t, s4) ->
    ends project location model_name contents w
      (inr tt,
       {| stdout := stdout w ++ "Model Response:" ++ nl ++ "---------------" ++ nl
                             ++ t ++ nl;
          calls := (calls w
                     ++ script_calls project location model_name contents)%list;
          svc := s4 |}).

End PromptRunner.

Arguments deterministic : clear implicits.

Arguments World : clear implicits.
Arguments Proc : clear implicits.

(** ** A service to test against *)

(** The errors of the client library, by class. *)
Inductive Error : Type :=
| ConfigurationError
| AuthenticationError
| NotFoundError
| PermissionError
| TransientServiceError
| ContentPolicyError.

(** What a test double is set up with. *)
Record Mock : Type := {
  credentials : bool;      (* [vertexai.init] finds valid credentials *)
  models : list string;    (* the model names the account can use *)
  reachable : bool;        (* [generate_content] gets an answer *)
  blocked : bool;          (* the answer was filtered: no text to read *)
  reply : string           (* the text of the answer *)
}.

(** The double: its state counts the requests served, its answers do not
    depend on it. *)
Definition mock (k : Mock) : SDK := {|
  Exc := Error;
  Svc := nat;
  Model := string;
  Response := string;
  sdk_init := fun _ _ n =>
    (if credentials k then inr tt else inl AuthenticationError, n);
  sdk_GenerativeModel := fun name n =>
    (if existsb (String.eqb name) (models k)
     then inr name else inl NotFoundError, n);
  sdk_generate_content := fun _ _ n =>
    (if reachable k then inr (reply k) else inl TransientServiceError, S n);
  sdk_text := fun r n =>
    (if blocked k then inl ContentPolicyError else inr r, n)
|}.

(** The service of the scenario: everything works, the answer is
    [Hello!]. *)
Definition hello : Mock := {|
  credentials := true;
  models := ["gemini-2.5-pro"; "model-v1"];
  reachable := true;
  blocked := false;
  reply := "Hello!"
|}.

Definition no_credentials : Mock := {|
  credentials := false;
  models := models hello;
  reachable := true;
  blocked := false;
  reply := reply hello
|}.

Definition no_models : Mock := {|
  credentials := true;
  models := [];
  reachable := true;
  blocked := false;
  reply := reply hello
|}.

Definition unreachable : Mock := {|
  credentials := true;
  models := models hello;
  reachable := false;
  blocked := false;
  reply := reply hello
|}.

Definition filtered : Mock := {|
  credentials := true;
  models := models hello;
  reachable := true;
  blocked := true;
  reply := reply hello
|}.

(** A service whose answer depends on what it served before: the first
    request is answered [first], the later ones [again]. *)
Definition moody : SDK := {|
  Exc := Error;
  Svc := nat;
  Model := string;
  Response := string;
  sdk_init := fun _ _ n => (inr tt, n);
  sdk_GenerativeModel := fun name n => (inr name, n);
  sdk_generate_content := fun _ _ n =>
    (inr (match n with O => "first" | S _ => "again" end), S n);
  sdk_text := fun r n => (inr r, n)
|}.

(** ** What the library receives *)

(** A library operation that, besides doing its work, writes down the
    call it was handed: the record is kept on the library's side of the
    interface, from the arguments that arrive there. *)
Definition record_call {V : SDK} {A : Type} (c : Call)
    (op : Svc V -> (Exc V + A) * Svc V) (st : Svc V * list Call)
    : (Exc V + A) * (Svc V * list Call) :=
  let (r, s') := op (fst st) in
  (r, (s', (snd st ++ [c])%list)).

(** Any library, recording what it is asked.  The record is part of the
    state of the library, so it outlives a process. *)
Definition recording (V : SDK) : SDK := {|
  Exc := Exc V;
  Svc := (Svc V * list Call)%type;
  Model := Model V;
  Response := Response V;
  sdk_init := fun project location =>
    record_call (CallInit project location) (sdk_init V project location);
  sdk_GenerativeModel := fun model_name =>
    record_call (CallGenerativeModel model_name)
      (sdk_GenerativeModel V model_name);
  sdk_generate_content := fun m contents =>
    record_call (CallGenerateContent contents)
      (sdk_generate_content V m contents);
  sdk_text := fun r => record_call CallText (sdk_text V r)
|}.

(** What the recording library has been asked so far. *)
Definition received {V : SDK} (w : World (recording V)) : list Call :=
  snd (svc w).


(** ** Strings *)

Lemma append_assoc (a b c : string) : (a ++ b) ++ c = a ++ b ++ c.
Proof.
  induction a as [|x a IH]; cbn; [reflexivity | now rewrite IH].
Qed.

Section Properties.

Context {V : SDK}.

(** ** The five paths through the script *)

(** One library call answered: rewrite with the answer and go on. *)
Ltac answered H := rewrite H; cbn.

Ltac unfold_script :=
  unfold exec, prompt_runner, render, vertexai_init, GenerativeModel,
    generate_content, text, print, call; cbn.

Section Paths.

Variables project location model_name contents : string.
Variable w : World V.

Lemma exec_init_raises e s1 :
  sdk_init V project location (svc w) = (inl e, s1) ->
  exec (prompt_runner project location model_name contents) w =
    (inl e,
     {| stdout := stdout w;
        calls := (calls w ++ [CallInit project location])%list;
        svc := s1 |}).
Proof.
  intros Hi. unfold_script. answered Hi. reflexivity.
Qed.

Lemma exec_model_raises e s1 s2 :
  sdk_init V project location (svc w) = (inr tt, s1) ->
  sdk_GenerativeModel V model_name s1 = (inl e, s2) ->
  exec (prompt_runner project location model_name contents) w =
    (inl e,
     {| stdout := stdout w;
        calls := (calls w ++ [CallInit project location;
                              CallGenerativeModel model_name])%list;
        svc := s2 |}).
Proof.
  intros Hi Hm. unfold_script. answered Hi. answered Hm.
  rewrite <- app_assoc. reflexivity.
Qed.

Lemma exec_generate_raises m e s1 s2 s3 :
  sdk_init V project location (svc w) = (inr tt, s1) ->
  sdk_GenerativeModel V model_name s1 = (inr m, s2) ->
  sdk_generate_content V m contents s2 = (inl e, s3) ->
  exec (prompt_runner project location model_name contents) w =
    (inl e,
     {| stdout := stdout w;
        calls := (calls w ++ [CallInit project location;
                              CallGenerativeModel model_name;
                              CallGenerateContent contents])%list;
        svc := s3 |}).
Proof.
  intros Hi Hm Hg. unfold_script.
  answered Hi. answered Hm. answered Hg.
  rewrite <- !app_assoc. reflexivity.
Qed.

Lemma exec_text_raises m r e s1 s2 s3 s4 :
  sdk_init V project location (svc w) = (inr tt, s1) ->
  sdk_GenerativeModel V model_name s1 = (inr m, s2) ->
  sdk_generate_content V m contents s2 = (inr r, s3) ->
  sdk_text V r s3 = (inl e, s4) ->
  exec (prompt_runner project location model_name contents) w =
    (inl e,
     {| stdout := (stdout w ++ "Model Response:" ++ nl) ++ "---------------" ++ nl;
        calls := (calls w ++ [CallInit project location;
                              CallGenerativeModel model_name;
                              CallGenerateContent contents;
                              CallText])%list;
        svc := s4 |}).
Proof.
  intros Hi Hm Hg Ht. unfold_script.
  answered Hi. answered Hm. answered Hg. answered Ht.
  rewrite <- !app_assoc. reflexivity.
Qed.

Lemma exec_returns m r t s1 s2 s3 s4 :
  sdk_init V project location (svc w) = (inr tt, s1) ->
  sdk_GenerativeModel V model_name s1 = (inr m, s2) ->
  sdk_generate_content V m contents s2 = (inr r, s3) ->
  sdk_text V r s3 = (inr t, s4) ->
  exec (prompt_runner project location model_name contents) w =
    (inr tt,
     {| stdout := ((stdout w ++ "Model Response:" ++ nl) ++ "---------------" ++ nl)
                    ++ t ++ nl;
        calls := (calls w ++ [CallInit project location;
                              CallGenerativeModel model_name;
                              CallGenerateContent contents;
                              CallText])%list;
        svc := s4 |}).
Proof.
  intros Hi Hm Hg Ht. unfold_script.
  answered Hi. answered Hm. answered Hg. answered Ht.
  rewrite <- !app_assoc. reflexivity.
Qed.

End Paths.

(** ** Output of a run *)

(** C1.  On a run in which every library call returns and the text of the
    response is [t], the script returns normally and the standard output
    of the process is exactly the line [Model Response:], the line
    [---------------], then [t] as it is and a line break. *)
Theorem stdout_on_success (s : Svc V) m r t s1 s2 s3 s4 :
  sdk_init V PROJECT_ID LOCATION s = (inr tt, s1) ->
  sdk_GenerativeModel V "gemini-2.5-pro" s1 = (inr m, s2) ->
  sdk_generate_content V m prompt s2 = (inr r, s3) ->
  sdk_text V r s3 = (inr t, s4) ->
  fst (python run_gemini s) = inr tt /\
  stdout (snd (python run_gemini s)) =
    "Model Response:" ++ nl ++ "---------------" ++ nl ++ t ++ nl.
Proof.
  intros Hi Hm Hg Ht. unfold python, run_gemini.
  rewrite (exec_returns _ _ _ _ (fresh s) m r t s1 s2 s3 s4 Hi Hm Hg Ht).
  split; reflexivity.
Qed.

(** C2, as amended.  [render] writes two fixed header lines, not one, and
    then the text of the response followed by a line break.  Whatever the
    text is, it is written unchanged and [render] returns normally. *)
Theorem render_writes_two_header_lines (w : World V) r t s' :
  sdk_text V r (svc w) = (inr t, s') ->
  exec (render r) w =
    (inr tt,
     {| stdout := stdout w ++ "Model Response:" ++ nl
                           ++ "---------------" ++ nl ++ t ++ nl;
        calls := (calls w ++ [CallText])%list;
        svc := s' |}).
Proof.
  intros Ht. unfold_script. answered Ht.
  rewrite !append_assoc. reflexivity.
Qed.

(** C6.  When [generate_content] raises, the run ends with that exception
    and standard output is what it was before the run: nothing is
    written. *)
Theorem generate_failure_writes_nothing (w : World V) m e s1 s2 s3 :
  sdk_init V PROJECT_ID LOCATION (svc w) = (inr tt, s1) ->
  sdk_GenerativeModel V "gemini-2.5-pro" s1 = (inr m, s2) ->
  sdk_generate_content V m prompt s2 = (inl e, s3) ->
  fst (exec run_gemini w) = inl e /\
  stdout (snd (exec run_gemini w)) = stdout w.
Proof.
  intros Hi Hm Hg. unfold run_gemini.
  rewrite (exec_generate_raises _ _ _ _ w m e s1 s2 s3 Hi Hm Hg).
  split; reflexivity.
Qed.

(** C10.  When reading the text of the response raises, after
    [generate_content] has returned, the run ends with that exception and
    the two header lines are already on standard output: the output of the
    failed run is the headers and nothing else. *)
Theorem text_failure_leaves_headers (s : Svc V) m r e s1 s2 s3 s4 :
  sdk_init V PROJECT_ID LOCATION s = (inr tt, s1) ->
  sdk_GenerativeModel V "gemini-2.5-pro" s1 = (inr m, s2) ->
  sdk_generate_content V m prompt s2 = (inr r, s3) ->
  sdk_text V r s3 = (inl e, s4) ->
  fst (python run_gemini s) = inl e /\
  stdout (snd (python run_gemini s)) =
    "Model Response:" ++ nl ++ "---------------" ++ nl.
Proof.
  intros Hi Hm Hg Ht. unfold python, run_gemini.
  rewrite (exec_text_raises _ _ _ _ (fresh s) m r e s1 s2 s3 s4 Hi Hm Hg Ht).
  split; reflexivity.
Qed.

(** ** How many prompts a run sends *)

Lemma prompts_sent_app (l1 l2 : list Call) :
  prompts_sent (l1 ++ l2) = (prompts_sent l1 ++ prompts_sent l2)%list.
Proof.
  induction l1 as [|c l1 IH]; cbn; [reflexivity|].
  destruct c; cbn; now rewrite IH.
Qed.

(** Once the model is bound the prompt goes out, once, whatever happens
    next. *)
Lemma sent_when_model_bound project location model_name contents
    (w : World V) m s1 s2 :
  sdk_init V project location (svc w) = (inr tt, s1) ->
  sdk_GenerativeModel V model_name s1 = (inr m, s2) ->
  prompts_sent
    (calls (snd (exec (prompt_runner project location model_name contents) w)))
  = (prompts_sent (calls w) ++ [contents])%list.
Proof.
  intros Hi Hm.
  destruct (sdk_generate_content V m contents s2) as [[e|r] s3] eqn:Hg.
  - rewrite (exec_generate_raises _ _ _ _ w m e s1 s2 s3 Hi Hm Hg).
    cbn. now rewrite prompts_sent_app.
  - destruct (sdk_text V r s3) as [[e|t] s4] eqn:Ht.
    + rewrite (exec_text_raises _ _ _ _ w m r e s1 s2 s3 s4 Hi Hm Hg Ht).
      cbn. now rewrite prompts_sent_app.
    + rewrite (exec_returns _ _ _ _ w m r t s1 s2 s3 s4 Hi Hm Hg Ht).
      cbn. now rewrite prompts_sent_app.
Qed.

(** A run sends nothing or sends its one prompt. *)
Lemma sent_at_most_once project location model_name contents (w : World V) :
  let sent :=
    prompts_sent
      (calls (snd (exec (prompt_runner project location model_name contents) w)))
  in
  sent = prompts_sent (calls w) \/
  sent = (prompts_sent (calls w) ++ [contents])%list.
Proof.
  cbv zeta.
  destruct (sdk_init V project location (svc w)) as [[e|[]] s1] eqn:Hi.
  - left. rewrite (exec_init_raises _ _ _ _ w e s1 Hi). cbn.
    rewrite prompts_sent_app. cbn. apply app_nil_r.
  - destruct (sdk_GenerativeModel V model_name s1) as [[e|m] s2] eqn:Hm.
    + left. rewrite (exec_model_raises _ _ _ _ w e s1 s2 Hi Hm). cbn.
      rewrite prompts_sent_app. cbn. apply app_nil_r.
    + right. exact (sent_when_model_bound _ _ _ _ w m s1 s2 Hi Hm).
Qed.

(** The script does not look at the prompt before the call: an empty one
    is handed to [generate_content] like any other, and it is the library
    that accepts or rejects it. *)
Lemma empty_prompt_is_passed_on project location model_name
    (s : Svc V) m s1 s2 :
  sdk_init V project location s = (inr tt, s1) ->
  sdk_GenerativeModel V model_name s1 = (inr m, s2) ->
  prompts_sent
    (calls (snd (python (prompt_runner project location model_name "") s)))
  = [""].
Proof.
  intros Hi Hm.
  apply (sent_when_model_bound _ _ _ _ (fresh s) m s1 s2 Hi Hm).
Qed.

(** ** Exceptions and the exit status *)

(** C5.  Nothing in the script catches: an exception raised by
    [vertexai.init], by the constructor of the model or by
    [generate_content] is the outcome of the run, and the process exits
    with a status that is not 0.  When every call returns, the script
    returns and the status is 0. *)
Theorem failures_reach_the_process_boundary (s : Svc V) :
  let r := fst (python run_gemini s) in
  (forall e s1,
      sdk_init V PROJECT_ID LOCATION s = (inl e, s1) ->
      r = inl e /\ exit_status r <> 0%Z) /\
  (forall e s1 s2,
      sdk_init V PROJECT_ID LOCATION s = (inr tt, s1) ->
      sdk_GenerativeModel V "gemini-2.5-pro" s1 = (inl e, s2) ->
      r = inl e /\ exit_status r <> 0%Z) /\
  (forall m e s1 s2 s3,
      sdk_init V PROJECT_ID LOCATION s = (inr tt, s1) ->
      sdk_GenerativeModel V "gemini-2.5-pro" s1 = (inr m, s2) ->
      sdk_generate_content V m prompt s2 = (inl e, s3) ->
      r = inl e /\ exit_status r <> 0%Z) /\
  (forall m resp t s1 s2 s3 s4,
      sdk_init V PROJECT_ID LOCATION s = (inr tt, s1) ->
      sdk_GenerativeModel V "gemini-2.5-pro" s1 = (inr m, s2) ->
      sdk_generate_content V m prompt s2 = (inr resp, s3) ->
      sdk_text V resp s3 = (inr t, s4) ->
      r = inr tt /\ exit_status r = 0%Z).
Proof.
  cbv zeta. unfold python, run_gemini. repeat apply conj.
  - intros e s1 Hi.
    rewrite (exec_init_raises _ _ _ _ (fresh s) e s1 Hi).
    cbn. split; [reflexivity | discriminate].
  - intros e s1 s2 Hi Hm.
    rewrite (exec_model_raises _ _ _ _ (fresh s) e s1 s2 Hi Hm).
    cbn. split; [reflexivity | discriminate].
  - intros m e s1 s2 s3 Hi Hm Hg.
    rewrite (exec_generate_raises _ _ _ _ (fresh s) m e s1 s2 s3 Hi Hm Hg).
    cbn. split; [reflexivity | discriminate].
  - intros m resp t s1 s2 s3 s4 Hi Hm Hg Ht.
    rewrite (exec_returns _ _ _ _ (fresh s) m resp t s1 s2 s3 s4 Hi Hm Hg Ht).
    cbn. split; reflexivity.
Qed.

(** ** Two runs *)

(** What a process leaves for an observer: how it ended, what it wrote,
    what it called. *)
Lemma run_independent_of_service_state
    project location model_name contents (s s' : Svc V) :
  deterministic V ->
  let run := python (prompt_runner project location model_name contents) in
  fst (run s) = fst (run s') /\
  stdout (snd (run s)) = stdout (snd (run s')) /\
  calls (snd (run s)) = calls (snd (run s')).
Proof.
  intros (Di & Dm & Dg & Dt). cbv zeta. unfold python.
  pose proof (Di project location s s') as Ei.
  destruct (sdk_init V project location s) as [[e|[]] s1] eqn:Hi;
    destruct (sdk_init V project location s') as [[e'|[]] s1'] eqn:Hi';
    cbn in Ei; try discriminate Ei.
  { injection Ei as <-.
    rewrite (exec_init_raises _ _ _ _ (fresh s) e s1 Hi).
    rewrite (exec_init_raises _ _ _ _ (fresh s') e s1' Hi').
    repeat split. }
  clear Ei. pose proof (Dm model_name s1 s1') as Em.
  destruct (sdk_GenerativeModel V model_name s1) as [[e|m] s2] eqn:Hm;
    destruct (sdk_GenerativeModel V model_name s1') as [[e'|m'] s2'] eqn:Hm';
    cbn in Em; try discriminate Em.
  { injection Em as <-.
    rewrite (exec_model_raises _ _ _ _ (fresh s) e s1 s2 Hi Hm).
    rewrite (exec_model_raises _ _ _ _ (fresh s') e s1' s2' Hi' Hm').
    repeat split. }
  injection Em as <-. pose proof (Dg m contents s2 s2') as Eg.
  destruct (sdk_generate_content V m contents s2) as [[e|r] s3] eqn:Hg;
    destruct (sdk_generate_content V m contents s2') as [[e'|r'] s3'] eqn:Hg';
    cbn in Eg; try discriminate Eg.
  { injection Eg as <-.
    rewrite (exec_generate_raises _ _ _ _ (fresh s) m e s1 s2 s3 Hi Hm Hg).
    rewrite (exec_generate_raises _ _ _ _ (fresh s') m e s1' s2' s3' Hi' Hm' Hg').
    repeat split. }
  injection Eg as <-. pose proof (Dt r s3 s3') as Et.
  destruct (sdk_text V r s3) as [[e|t] s4] eqn:Ht;
    destruct (sdk_text V r s3') as [[e'|t'] s4'] eqn:Ht';
    cbn in Et; try discriminate Et.
  { injection Et as <-.
    rewrite (exec_text_raises _ _ _ _ (fresh s) m r e s1 s2 s3 s4 Hi Hm Hg Ht).
    rewrite (exec_text_raises _ _ _ _ (fresh s') m r e s1' s2' s3' s4' Hi' Hm' Hg' Ht').
    repeat split. }
  injection Et as <-.
  rewrite (exec_returns _ _ _ _ (fresh s) m r t s1 s2 s3 s4 Hi Hm Hg Ht).
  rewrite (exec_returns _ _ _ _ (fresh s') m r t s1' s2' s3' s4' Hi' Hm' Hg' Ht').
  repeat split.
Qed.

(** C7.  Against a deterministic service, and for any project, region,
    model name and prompt, two runs end the same way and write the same
    text, whatever state the service is in when each starts; in
    particular a second run, started on the service as the first run left
    it, repeats the output of the first. *)
Theorem two_runs_same_output
    project location model_name contents (s s' : Svc V) :
  deterministic V ->
  let run := python (prompt_runner project location model_name contents) in
  (fst (run s) = fst (run s') /\
   stdout (snd (run s)) = stdout (snd (run s'))) /\
  (fst (run (svc (snd (run s)))) = fst (run s) /\
   stdout (snd (run (svc (snd (run s))))) = stdout (snd (run s))).
Proof.
  intros D. cbv zeta. split.
  - destruct (run_independent_of_service_state
                project location model_name contents s s' D) as (Hr & Ho & _).
    now split.
  - destruct (run_independent_of_service_state
                project location model_name contents
                (svc (snd (python
                  (prompt_runner project location model_name contents) s)))
                s D) as (Hr & Ho & _).
    now split.
Qed.

(** ** Every run is one of the five *)

Lemma exec_ends project location model_name contents (w : World V) :
  ends project location model_name contents w
    (exec (prompt_runner project location model_name contents) w).
Proof.
  destruct (sdk_init V project location (svc w)) as [[e|[]] s1] eqn:Hi.
  { rewrite (exec_init_raises _ _ _ _ w e s1 Hi).
    exact (init_raised _ _ _ _ w e s1 Hi). }
  destruct (sdk_GenerativeModel V model_name s1) as [[e|m] s2] eqn:Hm.
  { rewrite (exec_model_raises _ _ _ _ w e s1 s2 Hi Hm).
    exact (model_raised _ _ _ _ w e s1 s2 Hi Hm). }
  destruct (sdk_generate_content V m contents s2) as [[e|r] s3] eqn:Hg.
  { rewrite (exec_generate_raises _ _ _ _ w m e s1 s2 s3 Hi Hm Hg).
    exact (generate_raised _ _ _ _ w m e s1 s2 s3 Hi Hm Hg). }
  destruct (sdk_text V r s3) as [[e|t] s4] eqn:Ht.
  { rewrite (exec_text_raises _ _ _ _ w m r e s1 s2 s3 s4 Hi Hm Hg Ht).
    rewrite append_assoc.
    exact (text_raised _ _ _ _ w m r e s1 s2 s3 s4 Hi Hm Hg Ht). }
  rewrite (exec_returns _ _ _ _ w m r t s1 s2 s3 s4 Hi Hm Hg Ht).
  rewrite !append_assoc.
  exact (returned _ _ _ _ w m r t s1 s2 s3 s4 Hi Hm Hg Ht).
Qed.

(** ** What every run has in common *)

Lemma append_nil_r (a : string) : a ++ "" = a.
Proof.
  induction a as [|c a IH]; cbn; [reflexivity | now rewrite IH].
Qed.

Lemma append_cancel_l (a x y : string) : a ++ x = a ++ y -> x = y.
Proof.
  induction a as [|c a IH]; cbn; intros H; [exact H|].
  injection H as H. now apply IH.
Qed.

Lemma append_cancel_last (c : ascii) (x y : string) :
  x ++ String c "" = y ++ String c "" -> x = y.
Proof.
  revert y. induction x as [|a x IH]; intros [|b y]; cbn; intros H.
  - reflexivity.
  - injection H as _ H. destruct y; discriminate H.
  - injection H as _ H. destruct x; discriminate H.
  - injection H as <- H. f_equal. now apply IH.
Qed.

(** X2.  A run that returns normally has had all four calls return, each
    in the state the one before left, and has written the two header
    lines and the text that [text] returned: a status of 0 means the
    answer is on standard output. *)
Theorem returns_only_with_the_answer_written
    project location model_name contents (s : Svc V) :
  fst (python (prompt_runner project location model_name contents) s) = inr tt ->
  exists m r t s1 s2 s3,
    sdk_init V project location s = (inr tt, s1) /\
    sdk_GenerativeModel V model_name s1 = (inr m, s2) /\
    sdk_generate_content V m contents s2 = (inr r, s3) /\
    sdk_text V r s3 =
      (inr t,
       svc (snd (python (prompt_runner project location model_name contents) s))) /\
    stdout (snd (python (prompt_runner project location model_name contents) s))
    = "Model Response:" ++ nl ++ "---------------" ++ nl ++ t ++ nl.
Proof.
  unfold python.
  destruct (exec_ends project location model_name contents (fresh s))
    as [e s1 Hi|e s1 s2 Hi Hm|m e s1 s2 s3 Hi Hm Hg
       |m r e s1 s2 s3 s4 Hi Hm Hg Ht|m r t s1 s2 s3 s4 Hi Hm Hg Ht];
    cbn; intros H; try discriminate H.
  exists m, r, t, s1, s2, s3. repeat split; assumption.
Qed.

(** X3.  A run that ends with an exception has written either nothing, and
    then never asked for the text, or exactly the two header lines, and
    then made all four calls: no part of the text is ever written by a
    failed run. *)
Theorem failed_run_writes_no_text
    project location model_name contents (s : Svc V) e :
  fst (python (prompt_runner project location model_name contents) s) = inl e ->
  let w' := snd (python (prompt_runner project location model_name contents) s) in
  (stdout w' = "" /\ ~ In CallText (calls w')) \/
  (stdout w' = "Model Response:" ++ nl ++ "---------------" ++ nl /\
   calls w' = script_calls project location model_name contents).
Proof.
  unfold python. cbv zeta.
  destruct (exec_ends project location model_name contents (fresh s));
    cbn; intros Hf; try discriminate Hf.
  - left. split; [reflexivity|]. intros [F|[]]; discriminate F.
  - left. split; [reflexivity|]. intros [F|[F|[]]]; discriminate F.
  - left. split; [reflexivity|]. intros [F|[F|[F|[]]]]; discriminate F.
  - right. split; reflexivity.
Qed.

(** X4.  The script only adds to the state of the process.  Started in a
    process that has already written and called, it ends as it would in a
    new process on the same service, its output comes after what was
    written before, and its calls after the calls made before; neither
    the earlier output nor the record of calls has any influence on the
    run. *)
Theorem run_only_appends
    project location model_name contents (w : World V) :
  let out := exec (prompt_runner project location model_name contents) w in
  let alone :=
    python (prompt_runner project location model_name contents) (svc w) in
  fst out = fst alone /\
  stdout (snd out) = stdout w ++ stdout (snd alone) /\
  calls (snd out) = (calls w ++ calls (snd alone))%list /\
  svc (snd out) = svc (snd alone).
Proof.
  cbv zeta. unfold python.
  destruct (sdk_init V project location (svc w)) as [[e|[]] s1] eqn:Hi.
  { rewrite (exec_init_raises _ _ _ _ w e s1 Hi).
    rewrite (exec_init_raises _ _ _ _ (fresh (svc w)) e s1 Hi). cbn.
    repeat split. now rewrite append_nil_r. }
  destruct (sdk_GenerativeModel V model_name s1) as [[e|m] s2] eqn:Hm.
  { rewrite (exec_model_raises _ _ _ _ w e s1 s2 Hi Hm).
    rewrite (exec_model_raises _ _ _ _ (fresh (svc w)) e s1 s2 Hi Hm). cbn.
    repeat split. now rewrite append_nil_r. }
  destruct (sdk_generate_content V m contents s2) as [[e|r] s3] eqn:Hg.
  { rewrite (exec_generate_raises _ _ _ _ w m e s1 s2 s3 Hi Hm Hg).
    rewrite (exec_generate_raises _ _ _ _ (fresh (svc w)) m e s1 s2 s3 Hi Hm Hg).
    cbn. repeat split. now rewrite append_nil_r. }
  destruct (sdk_text V r s3) as [[e|t] s4] eqn:Ht.
  { rewrite (exec_text_raises _ _ _ _ w m r e s1 s2 s3 s4 Hi Hm Hg Ht).
    rewrite (exec_text_raises _ _ _ _ (fresh (svc w)) m r e s1 s2 s3 s4 Hi Hm Hg Ht).
    cbn. repeat split. now rewrite append_assoc. }
  rewrite (exec_returns _ _ _ _ w m r t s1 s2 s3 s4 Hi Hm Hg Ht).
  rewrite (exec_returns _ _ _ _ (fresh (svc w)) m r t s1 s2 s3 s4 Hi Hm Hg Ht).
  cbn. repeat split. now rewrite !append_assoc.
Qed.

(** X5.  When [vertexai.init] raises, the run ends there with that
    exception: no model is bound, no prompt is sent, nothing is written,
    and the service is left as [vertexai.init] left it. *)
Theorem init_failure_ends_the_run (s : Svc V) e s1 :
  sdk_init V PROJECT_ID LOCATION s = (inl e, s1) ->
  python run_gemini s =
    (inl e,
     {| stdout := "";
        calls := [CallInit PROJECT_ID LOCATION];
        svc := s1 |}).
Proof.
  intros Hi. unfold python, run_gemini.
  exact (exec_init_raises _ _ _ _ (fresh s) e s1 Hi).
Qed.

(** X6.  A prompt is sent only when [vertexai.init] has returned and the
    constructor has returned a model, in the state [vertexai.init]
    left. *)
Theorem prompt_sent_only_to_a_bound_model
    project location model_name contents (s : Svc V) :
  prompts_sent
    (calls (snd (python (prompt_runner project location model_name contents) s)))
  <> [] ->
  exists m s1 s2,
    sdk_init V project location s = (inr tt, s1) /\
    sdk_GenerativeModel V model_name s1 = (inr m, s2).
Proof.
  unfold python.
  destruct (exec_ends project location model_name contents (fresh s))
    as [e s1 Hi|e s1 s2 Hi Hm|m e s1 s2 s3 Hi Hm Hg
       |m r e s1 s2 s3 s4 Hi Hm Hg Ht|m r t s1 s2 s3 s4 Hi Hm Hg Ht];
    cbn; intros Hs;
    try (exfalso; apply Hs; reflexivity);
    exists m, s1, s2; split; assumption.
Qed.

(** X7.  [render] keeps texts apart: two responses whose texts differ are
    never rendered to the same output, so the text can be read back from
    what was written. *)
Theorem render_keeps_texts_apart (w : World V) r r' t t' s1 s1' :
  sdk_text V r (svc w) = (inr t, s1) ->
  sdk_text V r' (svc w) = (inr t', s1') ->
  t <> t' ->
  stdout (snd (exec (render r) w)) <> stdout (snd (exec (render r') w)).
Proof.
  intros Ht Ht' Hne. unfold_script. answered Ht. answered Ht'.
  intros H. apply Hne. apply append_cancel_l in H.
  now apply append_cancel_last in H.
Qed.

(** X8.  Whatever the response, [render] makes one call, for the text, and
    has by then written the two header lines after what was there; what
    follows them is nothing, when the call raised, or the text and a line
    feed. *)
Theorem render_always_writes_the_headers (w : World V) r :
  calls (snd (exec (render r) w)) = (calls w ++ [CallText])%list /\
  exists rest,
    stdout (snd (exec (render r) w)) =
      stdout w ++ "Model Response:" ++ nl ++ "---------------" ++ nl ++ rest /\
    ((rest = "" /\ exists e, fst (exec (render r) w) = inl e) \/
     (fst (exec (render r) w) = inr tt /\
      exists t s', sdk_text V r (svc w) = (inr t, s') /\ rest = t ++ nl)).
Proof.
  unfold_script.
  destruct (sdk_text V r (svc w)) as [[e|t] s'] eqn:Ht; cbn.
  - split; [reflexivity|]. exists "". split.
    + now rewrite !append_assoc.
    + left. split; [reflexivity | now exists e].
  - split; [reflexivity|]. exists (t ++ nl). split.
    + now rewrite !append_assoc.
    + right. split; [reflexivity | now exists t, s'].
Qed.

End Properties.

(** ** What reaches the library *)

Section Received.

Context {V : SDK}.

Lemma record_call_eq {A : Type} (c : Call)
    (op : Svc V -> (Exc V + A) * Svc V) s h r s' :
  op s = (r, s') ->
  record_call c op (s, h) = (r, (s', (h ++ [c])%list)).
Proof.
  intros H. unfold record_call. cbn. now rewrite H.
Qed.

(** The recording changes nothing in a run: it ends the same way, writes
    the same and leaves the library in the same state; and what the
    library was handed is what the run says it called. *)
Lemma recording_is_transparent
    project location model_name contents (s : Svc V) (h : list Call) :
  let rec :=
    python (V := recording V)
      (prompt_runner project location model_name contents) (s, h) in
  let plain := python (prompt_runner project location model_name contents) s in
  fst rec = fst plain /\
  stdout (snd rec) = stdout (snd plain) /\
  fst (svc (snd rec)) = svc (snd plain) /\
  received (snd rec) = (h ++ calls (snd plain))%list.
Proof.
  cbv zeta. unfold python, received.
  destruct (sdk_init V project location s) as [[e|[]] s1] eqn:Hi.
  { rewrite (exec_init_raises _ _ _ _ (fresh s) e s1 Hi).
    rewrite (exec_init_raises (V := recording V) _ _ _ _ (fresh (V := recording V) (s, h)) e _
               (record_call_eq _ _ s h _ _ Hi)).
    repeat split. }
  destruct (sdk_GenerativeModel V model_name s1) as [[e|m] s2] eqn:Hm.
  { rewrite (exec_model_raises _ _ _ _ (fresh s) e s1 s2 Hi Hm).
    rewrite (exec_model_raises (V := recording V) _ _ _ _ (fresh (V := recording V) (s, h)) e _ _
               (record_call_eq _ _ s h _ _ Hi)
               (record_call_eq _ _ s1 _ _ _ Hm)).
    cbn. rewrite <- app_assoc. repeat split. }
  destruct (sdk_generate_content V m contents s2) as [[e|r] s3] eqn:Hg.
  { rewrite (exec_generate_raises _ _ _ _ (fresh s) m e s1 s2 s3 Hi Hm Hg).
    rewrite (exec_generate_raises (V := recording V) _ _ _ _ (fresh (V := recording V) (s, h))
               m e _ _ _
               (record_call_eq _ _ s h _ _ Hi)
               (record_call_eq _ _ s1 _ _ _ Hm)
               (record_call_eq _ _ s2 _ _ _ Hg)).
    cbn. rewrite <- !app_assoc. repeat split. }
  destruct (sdk_text V r s3) as [[e|t] s4] eqn:Ht.
  { rewrite (exec_text_raises _ _ _ _ (fresh s) m r e s1 s2 s3 s4 Hi Hm Hg Ht).
    rewrite (exec_text_raises (V := recording V) _ _ _ _ (fresh (V := recording V) (s, h))
               m r e _ _ _ _
               (record_call_eq _ _ s h _ _ Hi)
               (record_call_eq _ _ s1 _ _ _ Hm)
               (record_call_eq _ _ s2 _ _ _ Hg)
               (record_call_eq _ _ s3 _ _ _ Ht)).
    cbn. rewrite <- !app_assoc. repeat split. }
  rewrite (exec_returns _ _ _ _ (fresh s) m r t s1 s2 s3 s4 Hi Hm Hg Ht).
  rewrite (exec_returns (V := recording V) _ _ _ _ (fresh (V := recording V) (s, h))
             m r t _ _ _ _
             (record_call_eq _ _ s h _ _ Hi)
             (record_call_eq _ _ s1 _ _ _ Hm)
             (record_call_eq _ _ s2 _ _ _ Hg)
             (record_call_eq _ _ s3 _ _ _ Ht)).
  cbn. rewrite <- !app_assoc. repeat split.
Qed.

(** C3, as amended.  Whatever the library was asked before the run ([h]),
    a run adds at most one [generate_content] request to it, and the
    prompt of that request is the one literal of the script: exactly one
    request when [vertexai.init] and the constructor both return, none
    when [vertexai.init] raises, none when the constructor raises.
    Nothing sent earlier is sent again or added to what is sent. *)
Theorem one_prompt_per_run (s : Svc V) (h : list Call) :
  let got :=
    prompts_sent
      (received (snd (python (V := recording V) run_gemini (s, h)))) in
  (got = prompts_sent h \/ got = (prompts_sent h ++ [prompt])%list) /\
  (forall m s1 s2,
      sdk_init V PROJECT_ID LOCATION s = (inr tt, s1) ->
      sdk_GenerativeModel V "gemini-2.5-pro" s1 = (inr m, s2) ->
      got = (prompts_sent h ++ [prompt])%list) /\
  (forall e s1,
      sdk_init V PROJECT_ID LOCATION s = (inl e, s1) ->
      got = prompts_sent h) /\
  (forall e s1 s2,
      sdk_init V PROJECT_ID LOCATION s = (inr tt, s1) ->
      sdk_GenerativeModel V "gemini-2.5-pro" s1 = (inl e, s2) ->
      got = prompts_sent h).
Proof.
  cbv zeta. unfold run_gemini.
  destruct (recording_is_transparent
              PROJECT_ID LOCATION "gemini-2.5-pro" prompt s h)
    as (_ & _ & _ & Hr).
  rewrite Hr, prompts_sent_app. unfold python. repeat apply conj.
  - destruct (sent_at_most_once
                PROJECT_ID LOCATION "gemini-2.5-pro" prompt (fresh s))
      as [H0|H1].
    + left. rewrite H0. apply app_nil_r.
    + right. now rewrite H1.
  - intros m s1 s2 Hi Hm.
    now rewrite (sent_when_model_bound _ _ _ _ (fresh s) m s1 s2 Hi Hm).
  - intros e s1 Hi.
    rewrite (exec_init_raises _ _ _ _ (fresh s) e s1 Hi). apply app_nil_r.
  - intros e s1 s2 Hi Hm.
    rewrite (exec_model_raises _ _ _ _ (fresh s) e s1 s2 Hi Hm).
    apply app_nil_r.
Qed.


(** C9.  The prompt of the script is a literal that is not empty; its
    first and its last character are line feeds; and what the library
    receives with [generate_content] is that literal, character for
    character, nothing trimmed: it receives it in every run in which
    [vertexai.init] and the constructor return, and never receives
    anything else. *)
Theorem prompt_is_sent_untrimmed :
  prompt <> "" /\
  String.get 0 prompt = Some (ascii_of_nat 10) /\
  String.get (String.length prompt - 1) prompt = Some (ascii_of_nat 10) /\
  (forall s : Svc V,
      let got :=
        prompts_sent
          (received (snd (python (V := recording V) run_gemini (s, [])))) in
      got = [] \/ got = [prompt]) /\
  (forall (s : Svc V) m s1 s2,
      sdk_init V PROJECT_ID LOCATION s = (inr tt, s1) ->
      sdk_GenerativeModel V "gemini-2.5-pro" s1 = (inr m, s2) ->
      prompts_sent
        (received (snd (python (V := recording V) run_gemini (s, []))))
      = [prompt]).
Proof.
  assert (Hr : forall s : Svc V,
             received (snd (python (V := recording V) run_gemini (s, [])))
             = calls (snd (python run_gemini s))).
  { intros s. unfold run_gemini.
    now destruct (recording_is_transparent
                    PROJECT_ID LOCATION "gemini-2.5-pro" prompt s [])
      as (_ & _ & _ & ->). }
  repeat apply conj.
  - discriminate.
  - reflexivity.
  - reflexivity.
  - intros s. cbv zeta. rewrite Hr.
    apply (sent_at_most_once _ _ _ _ (fresh s)).
  - intros s m s1 s2 Hi Hm. rewrite Hr.
    apply (sent_when_model_bound _ _ _ _ (fresh s) m s1 s2 Hi Hm).
Qed.

(** X1.  What the library receives in a run is the first [k] calls of the
    script, in the order of the script and with the arguments of the
    script, for some [k] from 1 to 4: no call is made twice, none out of
    order, none with other arguments, and [vertexai.init] is always
    called. *)
Theorem calls_follow_the_script
    project location model_name contents (s : Svc V) :
  exists k,
    (1 <= k /\ k <= 4) /\
    received
      (snd (python (V := recording V)
              (prompt_runner project location model_name contents) (s, [])))
    = firstn k (script_calls project location model_name contents).
Proof.
  destruct (recording_is_transparent
              project location model_name contents s [])
    as (_ & _ & _ & ->).
  cbn [app]. unfold python.
  destruct (exec_ends project location model_name contents (fresh s));
    [exists 1 | exists 2 | exists 3 | exists 4 | exists 4];
    (split; [split; repeat constructor | reflexivity]).
Qed.

End Received.

(** ** The properties on the test services *)

(** C1 on the service of the scenario. *)
Lemma stdout_on_success_hello :
  fst (python (V := mock hello) run_gemini 0) = inr tt /\
  stdout (snd (python (V := mock hello) run_gemini 0)) =
    "Model Response:" ++ nl ++ "---------------" ++ nl ++ "Hello!" ++ nl.
Proof.
  apply (stdout_on_success (V := mock hello)
           0 "gemini-2.5-pro" "Hello!" "Hello!" 0 0 1 1); reflexivity.
Defined.

(** C2 as it is worded fails: for the response [Hello!], no single line
    [header] makes the output of [render] the line [header] followed by the
    text, whatever may come after the text. *)
Lemma render_header_is_not_one_line :
  ~ exists header rest : string,
      one_line header = true /\
      stdout (snd (exec (render (V := mock hello) "Hello!") (fresh (V := mock hello) 0))) =
        header ++ nl ++ "Hello!" ++ rest.
Proof.
  intros (h & rest & Hl & He). cbn in He.
  repeat (destruct h as [|c h]; cbn in He, Hl;
          [ discriminate He
          | injection He as Hc He; subst c; cbn in Hl; try discriminate Hl ]).
Qed.

(** C2, as amended, on the service of the scenario. *)
Lemma render_hello :
  exec (render (V := mock hello) "Hello!") (fresh (V := mock hello) 0) =
    (inr tt,
     @Build_World (mock hello)
       ("" ++ "Model Response:" ++ nl ++ "---------------" ++ nl
           ++ "Hello!" ++ nl)
       ([] ++ [CallText])%list
       0).
Proof.
  apply (render_writes_two_header_lines (V := mock hello)
           (fresh (V := mock hello) 0) "Hello!" "Hello!" 0); reflexivity.
Defined.

(** C5 on four services: one for each call that raises, and the one on
    which every call returns. *)
Lemma exit_status_on_the_mocks :
  (fst (python (V := mock no_credentials) run_gemini 0)
     = inl AuthenticationError /\
   exit_status (fst (python (V := mock no_credentials) run_gemini 0)) <> 0%Z) /\
  (fst (python (V := mock no_models) run_gemini 0) = inl NotFoundError /\
   exit_status (fst (python (V := mock no_models) run_gemini 0)) <> 0%Z) /\
  (fst (python (V := mock unreachable) run_gemini 0)
     = inl TransientServiceError /\
   exit_status (fst (python (V := mock unreachable) run_gemini 0)) <> 0%Z) /\
  (fst (python (V := mock hello) run_gemini 0) = inr tt /\
   exit_status (fst (python (V := mock hello) run_gemini 0)) = 0%Z).
Proof.
  split; [|split; [|split]].
  - destruct (failures_reach_the_process_boundary (V := mock no_credentials) 0)
      as (Hi & _).
    apply (Hi AuthenticationError 0); reflexivity.
  - destruct (failures_reach_the_process_boundary (V := mock no_models) 0)
      as (_ & Hm & _).
    apply (Hm NotFoundError 0 0); reflexivity.
  - destruct (failures_reach_the_process_boundary (V := mock unreachable) 0)
      as (_ & _ & Hg & _).
    apply (Hg "gemini-2.5-pro" TransientServiceError 0 0 1); reflexivity.
  - destruct (failures_reach_the_process_boundary (V := mock hello) 0)
      as (_ & _ & _ & Hok).
    apply (Hok "gemini-2.5-pro" "Hello!" "Hello!" 0 0 1 1); reflexivity.
Defined.

(** C6 on a service that cannot be reached, for a process that had
    already written something. *)
Lemma unreachable_writes_nothing :
  let w := @Build_World (mock unreachable) "earlier output" [] 0 in
  fst (exec run_gemini w) = inl TransientServiceError /\
  stdout (snd (exec run_gemini w)) = "earlier output".
Proof.
  apply (generate_failure_writes_nothing (V := mock unreachable)
           (@Build_World (mock unreachable) "earlier output" [] 0)
           "gemini-2.5-pro" TransientServiceError 0 0 1); reflexivity.
Defined.

Lemma mock_deterministic (k : Mock) : deterministic (mock k).
Proof. repeat split. Qed.

(** C7 on the service of the scenario, which has served 0 requests when
    the first run starts and 7 when the other does. *)
Lemma two_runs_hello :
  let run :=
    python (V := mock hello)
      (prompt_runner "demo-project" "us-central1" "model-v1" "Say hello.") in
  (fst (run 0) = fst (run 7) /\
   stdout (snd (run 0)) = stdout (snd (run 7))) /\
  (fst (run (svc (snd (run 0)))) = fst (run 0) /\
   stdout (snd (run (svc (snd (run 0))))) = stdout (snd (run 0))).
Proof.
  apply (two_runs_same_output (V := mock hello)
           "demo-project" "us-central1" "model-v1" "Say hello." 0 7).
  repeat split.
Defined.

(** Determinism of the service is needed: on [moody] the second run does
    not repeat the first. *)
Example moody_runs_differ :
  stdout (snd (python (V := moody) run_gemini 0)) <>
  stdout (snd (python (V := moody) run_gemini 1)).
Proof. cbn. discriminate. Qed.

(** C10 on a service whose answer was filtered. *)
Lemma filtered_leaves_headers :
  fst (python (V := mock filtered) run_gemini 0) = inl ContentPolicyError /\
  stdout (snd (python (V := mock filtered) run_gemini 0)) =
    "Model Response:" ++ nl ++ "---------------" ++ nl.
Proof.
  apply (text_failure_leaves_headers (V := mock filtered)
           0 "gemini-2.5-pro" "Hello!" ContentPolicyError 0 0 1 1);
    reflexivity.
Defined.

(** ** The further properties on the test services *)

(** X2 on the service of the scenario. *)
Lemma hello_returns_with_the_answer :
  exists (m r t : string) (s1 s2 s3 : nat),
    sdk_init (mock hello) PROJECT_ID LOCATION 0 = (inr tt, s1) /\
    sdk_GenerativeModel (mock hello) "gemini-2.5-pro" s1 = (inr m, s2) /\
    sdk_generate_content (mock hello) m prompt s2 = (inr r, s3) /\
    sdk_text (mock hello) r s3 =
      (inr t,
       svc (snd (python (V := mock hello)
                   (prompt_runner PROJECT_ID LOCATION "gemini-2.5-pro" prompt) 0))) /\
    stdout (snd (python (V := mock hello)
                   (prompt_runner PROJECT_ID LOCATION "gemini-2.5-pro" prompt) 0))
    = "Model Response:" ++ nl ++ "---------------" ++ nl ++ t ++ nl.
Proof.
  apply (returns_only_with_the_answer_written (V := mock hello)
           PROJECT_ID LOCATION "gemini-2.5-pro" prompt 0).
  reflexivity.
Defined.

(** X3 on a service whose answer was filtered. *)
Lemma filtered_writes_no_text :
  let w' :=
    snd (python (V := mock filtered)
           (prompt_runner PROJECT_ID LOCATION "gemini-2.5-pro" prompt) 0) in
  (stdout w' = "" /\ ~ In CallText (calls w')) \/
  (stdout w' = "Model Response:" ++ nl ++ "---------------" ++ nl /\
   calls w' = script_calls PROJECT_ID LOCATION "gemini-2.5-pro" prompt).
Proof.
  apply (failed_run_writes_no_text (V := mock filtered)
           PROJECT_ID LOCATION "gemini-2.5-pro" prompt 0 ContentPolicyError).
  reflexivity.
Defined.

(** X5 on a service without credentials. *)
Lemma no_credentials_ends_the_run :
  python (V := mock no_credentials) run_gemini 0 =
    (inl AuthenticationError,
     @Build_World (mock no_credentials) ""
       [CallInit PROJECT_ID LOCATION] 0).
Proof.
  apply (init_failure_ends_the_run (V := mock no_credentials)
           0 AuthenticationError 0).
  reflexivity.
Defined.

(** X6 on a service that cannot be reached: the prompt went out, to a
    model that was bound. *)
Lemma unreachable_had_a_bound_model :
  exists (m : string) (s1 s2 : nat),
    sdk_init (mock unreachable) PROJECT_ID LOCATION 0 = (inr tt, s1) /\
    sdk_GenerativeModel (mock unreachable) "gemini-2.5-pro" s1 = (inr m, s2).
Proof.
  apply (prompt_sent_only_to_a_bound_model (V := mock unreachable)
           PROJECT_ID LOCATION "gemini-2.5-pro" prompt 0).
  cbn. discriminate.
Defined.

(** X7 on [moody], whose responses are their own text. *)
Lemma moody_texts_apart :
  stdout (snd (exec (render (V := moody) "first") (fresh (V := moody) 0))) <>
  stdout (snd (exec (render (V := moody) "again") (fresh (V := moody) 0))).
Proof.
  apply (render_keeps_texts_apart (V := moody)
           (fresh (V := moody) 0) "first" "again" "first" "again" 0 0);
    [reflexivity | reflexivity | discriminate].
Defined.

(** ** The amended properties on the test services *)

(** C3 as it is worded fails: without credentials [vertexai.init] raises
    and the library receives no prompt at all. *)
Lemma no_credentials_no_prompt :
  length
    (prompts_sent
       (received
          (snd (python (V := recording (mock no_credentials))
                  run_gemini (0, [])))))
  <> 1.
Proof. cbn. discriminate. Qed.

(** C3, as amended, on a library that was sent a prompt by an earlier
    process: with the service of the scenario the run adds its one
    prompt, without credentials and without models it adds none. *)
Lemma one_prompt_on_the_mocks :
  let h := [CallGenerateContent "earlier"] in
  prompts_sent
    (received (snd (python (V := recording (mock hello)) run_gemini (0, h))))
  = ["earlier"; prompt] /\
  prompts_sent
    (received
       (snd (python (V := recording (mock no_credentials)) run_gemini (0, h))))
  = ["earlier"] /\
  prompts_sent
    (received
       (snd (python (V := recording (mock no_models)) run_gemini (0, h))))
  = ["earlier"].
Proof.
  cbv zeta. split; [|split].
  - destruct (one_prompt_per_run (V := mock hello)
                0 [CallGenerateContent "earlier"]) as (_ & Hsent & _).
    apply (Hsent "gemini-2.5-pro" 0 0); reflexivity.
  - destruct (one_prompt_per_run (V := mock no_credentials)
                0 [CallGenerateContent "earlier"]) as (_ & _ & Hinit & _).
    apply (Hinit AuthenticationError 0); reflexivity.
  - destruct (one_prompt_per_run (V := mock no_models)
                0 [CallGenerateContent "earlier"]) as (_ & _ & _ & Hmodel).
    apply (Hmodel NotFoundError 0 0); reflexivity.
Defined.



(** C9 on the service of the scenario: the library is handed the literal
    as it is. *)
Lemma prompt_sent_to_hello :
  prompts_sent
    (received (snd (python (V := recording (mock hello)) run_gemini (0, []))))
  = [prompt].
Proof.
  destruct (prompt_is_sent_untrimmed (V := mock hello))
    as (_ & _ & _ & _ & Hsent).
  apply (Hsent 0 "gemini-2.5-pro" 0 0); reflexivity.
Defined.
